(** * jxsysint.c: HAL system interrupt enable/disable, vector resolution and
      interprocessor interrupt request for the MIPS Jazz/Duo systems.

    A shallow embedding of [minkernel/hals/halfxs/mips/jxsysint.c].  The four
    routines of the module are translated statement by statement:

    - [HalDisableSystemInterrupt] and [HalEnableSystemInterrupt] are programs
      of a small state monad [Hal] over [HalState] (the in-memory mirror
      [HalpBuiltinInterruptEnable], the current IRQL and the chronological
      log of what the routine did to the outside world: register writes,
      spin lock and IRQL traffic, calls into the EISA support code);
    - [HalGetInterruptVector] is a pure function; its two OUT parameters
      and its return value are returned as a triple;
    - [HalRequestIpi] is a [Hal] program whose body is conditional on the
      [_DUO_] build flag.

    Machine integers are values of [Z] with the wrap-around of every
    conversion written out. *)

From Stdlib Require Import ZArith List Bool Lia.
Import ListNotations.
Local Open Scope Z_scope.

(** ** Machine integers *)

Module CInt.

(** Conversion to [USHORT] (16 bits, unsigned). *)
Definition USHORT_of (x : Z) : Z := x mod 2 ^ 16.

(** Conversion to [ULONG] (32 bits, unsigned). *)
Definition ULONG_of (x : Z) : Z := x mod 2 ^ 32.

(** Conversion to [int] (32 bits, two's complement). *)
Definition int_of (x : Z) : Z := (x + 2 ^ 31) mod 2 ^ 32 - 2 ^ 31.

(** Conversion to an unsigned type of [w] bits; [KIRQL] is such a type. *)
Definition unsigned_of (w x : Z) : Z := x mod 2 ^ w.

Definition is_USHORT (x : Z) : Prop := 0 <= x < 2 ^ 16.
Definition is_ULONG (x : Z) : Prop := 0 <= x < 2 ^ 32.

(** [a << n] on [int].  The count is taken modulo 32, as the MIPS [sllv]
    instruction does; C leaves counts of 32 and more undefined, and no
    result below depends on them. *)
Definition shl_int (a n : Z) : Z := int_of (Z.shiftl a (n mod 32)).

End CInt.
Import CInt.

(** ** Types of the interface *)

(** Modelled from the spec: the enumeration [INTERFACE_TYPE], declared
    outside this module ("interface type in internal, bus-standard-A,
    bus-standard-B, other").  Only [Internal], [Isa] and [Eisa] are named by
    the code; every other enumerator is [OtherInterface] with its numeric
    tag. *)
Inductive INTERFACE_TYPE : Type :=
| Internal
| Isa
| Eisa
| OtherInterface (tag : Z).

Definition INTERFACE_TYPE_eqb (a b : INTERFACE_TYPE) : bool :=
  match a, b with
  | Internal, Internal => true
  | Isa, Isa => true
  | Eisa, Eisa => true
  | OtherInterface m, OtherInterface n => m =? n
  | _, _ => false
  end.

Inductive KINTERRUPT_MODE : Type :=
| LevelSensitive
| Latched.

(** The two device registers this module writes. *)
Inductive Register : Type :=
| InterruptEnable       (* ((PINTERRUPT_REGISTERS)INTERRUPT_VIRTUAL_BASE)->Enable *)
| IpInterruptRequest.   (* ((PDMA_REGISTERS)DMA_VIRTUAL_BASE)->IpInterruptRequest.Long *)

(** What a routine does to its collaborators, in program order. *)
Inductive Event : Type :=
| EvRaiseIrql (NewIrql : Z)
| EvLowerIrql (NewIrql : Z)
| EvAcquireSpinLock
| EvReleaseSpinLock
| EvWriteRegister (r : Register) (value : Z)
| EvEnableEisaInterrupt (Vector : Z) (InterruptMode : KINTERRUPT_MODE)
| EvDisableEisaInterrupt (Vector : Z).

Record HalState : Type := mkHalState {
  HalpBuiltinInterruptEnable : Z;   (* USHORT mirror of the Enable register *)
  CurrentIrql : Z;
  Log : list Event                  (* oldest event first *)
}.

(** ** The state monad of the HAL routines *)

Definition Hal (A : Type) : Type := HalState -> A * HalState.

Definition ret {A : Type} (a : A) : Hal A := fun s => (a, s).

Definition bind {A B : Type} (m : Hal A) (k : A -> Hal B) : Hal B :=
  fun s => let (a, s') := m s in k a s'.

Declare Scope hal_scope.
Delimit Scope hal_scope with hal.
Notation "x <- m ;; k" := (bind m (fun x => k))
  (at level 61, m at next level, right associativity) : hal_scope.
Notation "m ;; k" := (bind m (fun _ => k))
  (at level 61, right associativity) : hal_scope.
Local Open Scope hal_scope.

(** [if (c) { m }] *)
Definition when (c : bool) (m : Hal unit) : Hal unit :=
  if c then m else ret tt.

Definition emit (e : Event) : Hal unit :=
  fun s => (tt, mkHalState (HalpBuiltinInterruptEnable s) (CurrentIrql s)
                           (Log s ++ [e])).

(** *** Collaborators

    The IRQL and spin lock primitives, the register access macros and the
    EISA support routines live outside this module.  The model is sequential:
    the lock is free when it is requested; the EISA routines are recorded as
    calls and touch neither the mirror nor the two registers above. *)

(** Modelled from the spec: the priority level collaborator,
    "raise(level) -> prior token".  Returns the IRQL in force before. *)
Definition KeRaiseIrql (NewIrql : Z) : Hal Z :=
  fun s => (CurrentIrql s,
            mkHalState (HalpBuiltinInterruptEnable s) NewIrql
                       (Log s ++ [EvRaiseIrql NewIrql])).

(** Modelled from the spec: the priority level collaborator, "lower(token)". *)
Definition KeLowerIrql (NewIrql : Z) : Hal unit :=
  fun s => (tt,
            mkHalState (HalpBuiltinInterruptEnable s) NewIrql
                       (Log s ++ [EvLowerIrql NewIrql])).

(** Modelled from the spec: the spin lock collaborator, "acquire(lockHandle)"
    and "release(lockHandle)", on the one lock [HalpSystemInterruptLock]. *)
Definition KiAcquireSpinLock : Hal unit := emit EvAcquireSpinLock.

Definition KiReleaseSpinLock : Hal unit := emit EvReleaseSpinLock.

(** Modelled from the spec: the register access collaborator,
    "writeRegister(addr, value)".  The value passed already has the width of
    the register. *)
Definition WRITE_REGISTER_USHORT (r : Register) (value : Z) : Hal unit :=
  emit (EvWriteRegister r value).

Definition WRITE_REGISTER_ULONG (r : Register) (value : Z) : Hal unit :=
  emit (EvWriteRegister r value).

(** Modelled from the spec: the external bus collaborator,
    "busEnable(vector, mode)" and "busDisable(vector)". *)
Definition HalpEnableEisaInterrupt (Vector : Z) (InterruptMode : KINTERRUPT_MODE)
  : Hal unit :=
  emit (EvEnableEisaInterrupt Vector InterruptMode).

Definition HalpDisableEisaInterrupt (Vector : Z) : Hal unit :=
  emit (EvDisableEisaInterrupt Vector).

(** Read and write of the global [HalpBuiltinInterruptEnable]. *)
Definition get_HalpBuiltinInterruptEnable : Hal Z :=
  fun s => (HalpBuiltinInterruptEnable s, s).

Definition set_HalpBuiltinInterruptEnable (v : Z) : Hal unit :=
  fun s => (tt, mkHalState v (CurrentIrql s) (Log s)).

(** ** Observations on the log *)

Definition register_write (e : Event) : option (Register * Z) :=
  match e with
  | EvWriteRegister r v => Some (r, v)
  | _ => None
  end.

(** The register writes of a log, in order. *)
Fixpoint register_writes (l : list Event) : list (Register * Z) :=
  match l with
  | [] => []
  | e :: l' =>
      match register_write e with
      | Some w => w :: register_writes l'
      | None => register_writes l'
      end
  end.

Definition eisa_call (e : Event) : bool :=
  match e with
  | EvEnableEisaInterrupt _ _ | EvDisableEisaInterrupt _ => true
  | _ => false
  end.

(** The calls into the EISA support code of a log, in order. *)
Definition eisa_calls (l : list Event) : list Event := filter eisa_call l.

(** The content of the controller's Enable register: the value most recently
    written to it, if any. *)
Fixpoint enable_register_from (cur : option Z) (l : list Event) : option Z :=
  match l with
  | [] => cur
  | EvWriteRegister InterruptEnable v :: l' => enable_register_from (Some v) l'
  | _ :: l' => enable_register_from cur l'
  end.

Definition EnableRegister (s : HalState) : option Z :=
  enable_register_from None (Log s).

(** Mirror and register hold the same value. *)
Definition in_sync (s : HalState) : Prop :=
  EnableRegister s = Some (HalpBuiltinInterruptEnable s).

(** ** The platform

    The constants of [halp.h] and of the platform definitions are not part of
    the module; the routines are read relative to a setting of them. *)

Module Platform.

Record t : Type := mk {
  DEVICE_VECTORS : Z;
  MAXIMUM_BUILTIN_VECTOR : Z;
  EISA_VECTORS : Z;
  MAXIMUM_EISA_VECTOR : Z;
  EISA_DEVICE_LEVEL : Z;
  HIGH_LEVEL : Z;
  HalpEisaBusAffinity : Z;   (* the global, fixed at system initialisation *)
  KIRQL_BITS : Z;            (* width in bits of the unsigned type KIRQL *)
  _DUO_ : bool               (* whether the module is compiled with _DUO_ *)
}.

End Platform.

(** One setting of the constants, on which the routines can be run: sixteen
    processor vectors followed by ten built-in device vectors, the EISA
    vectors from 32 on, and an eight bit [KIRQL]. *)
Definition Jazz : Platform.t :=
  {| Platform.DEVICE_VECTORS := 16;
     Platform.MAXIMUM_BUILTIN_VECTOR := 26;
     Platform.EISA_VECTORS := 32;
     Platform.MAXIMUM_EISA_VECTOR := 15;
     Platform.EISA_DEVICE_LEVEL := 5;
     Platform.HIGH_LEVEL := 8;
     Platform.HalpEisaBusAffinity := 1;
     Platform.KIRQL_BITS := 8;
     Platform._DUO_ := false |}.

(** A state at IRQL 0 whose Enable register has been written with [mask]. *)
Definition booted (mask : Z) : HalState :=
  mkHalState mask 0 [EvWriteRegister InterruptEnable mask].

(** ** The routines *)

Section OnPlatform.

Variable P : Platform.t.

Local Abbreviation DEVICE_VECTORS := (Platform.DEVICE_VECTORS P).
Local Abbreviation MAXIMUM_BUILTIN_VECTOR := (Platform.MAXIMUM_BUILTIN_VECTOR P).
Local Abbreviation EISA_VECTORS := (Platform.EISA_VECTORS P).
Local Abbreviation MAXIMUM_EISA_VECTOR := (Platform.MAXIMUM_EISA_VECTOR P).
Local Abbreviation EISA_DEVICE_LEVEL := (Platform.EISA_DEVICE_LEVEL P).
Local Abbreviation HIGH_LEVEL := (Platform.HIGH_LEVEL P).
Local Abbreviation HalpEisaBusAffinity := (Platform.HalpEisaBusAffinity P).
Local Abbreviation KIRQL_BITS := (Platform.KIRQL_BITS P).
Local Abbreviation _DUO_ := (Platform._DUO_ P).

Definition KIRQL_of (x : Z) : Z := unsigned_of KIRQL_BITS x.

(** [(Vector >= (DEVICE_VECTORS + 1)) && (Vector <= MAXIMUM_BUILTIN_VECTOR)];
    [Vector] is a [ULONG], so the constants are compared as [ULONG]s. *)
Definition builtin_vector (Vector : Z) : bool :=
  (ULONG_of (DEVICE_VECTORS + 1) <=? Vector) &&
  (Vector <=? ULONG_of MAXIMUM_BUILTIN_VECTOR).

(** [1 << (Vector - DEVICE_VECTORS - 1)] *)
Definition builtin_bit (Vector : Z) : Z :=
  shl_int 1 (ULONG_of (Vector - DEVICE_VECTORS - 1)).

(** [Vector >= EISA_VECTORS &&
     Vector < EISA_VECTORS + MAXIMUM_EISA_VECTOR &&
     Irql == EISA_DEVICE_LEVEL] *)
Definition eisa_vector (Vector Irql : Z) : bool :=
  (ULONG_of EISA_VECTORS <=? Vector) &&
  (Vector <? ULONG_of (EISA_VECTORS + MAXIMUM_EISA_VECTOR)) &&
  (Irql =? EISA_DEVICE_LEVEL).

Definition HalDisableSystemInterrupt (Vector Irql : Z) : Hal unit :=
  OldIrql <- KeRaiseIrql HIGH_LEVEL ;;
  KiAcquireSpinLock ;;
  when (builtin_vector Vector)
    (Enable <- get_HalpBuiltinInterruptEnable ;;
     set_HalpBuiltinInterruptEnable
       (USHORT_of (Z.land Enable (Z.lnot (builtin_bit Vector)))) ;;
     Enable' <- get_HalpBuiltinInterruptEnable ;;
     WRITE_REGISTER_USHORT InterruptEnable Enable') ;;
  when (eisa_vector Vector Irql)
    (HalpDisableEisaInterrupt Vector) ;;
  KiReleaseSpinLock ;;
  KeLowerIrql OldIrql.

Definition HalEnableSystemInterrupt
    (Vector Irql : Z) (InterruptMode : KINTERRUPT_MODE) : Hal bool :=
  OldIrql <- KeRaiseIrql HIGH_LEVEL ;;
  KiAcquireSpinLock ;;
  when (builtin_vector Vector)
    (Enable <- get_HalpBuiltinInterruptEnable ;;
     set_HalpBuiltinInterruptEnable
       (USHORT_of (Z.lor Enable (builtin_bit Vector))) ;;
     Enable' <- get_HalpBuiltinInterruptEnable ;;
     WRITE_REGISTER_USHORT InterruptEnable Enable') ;;
  when (eisa_vector Vector Irql)
    (HalpEnableEisaInterrupt Vector InterruptMode) ;;
  KiReleaseSpinLock ;;
  KeLowerIrql OldIrql ;;
  ret true.

(** The result is [(return value, *Irql, *Affinity)]. *)
Definition HalGetInterruptVector
    (InterfaceType : INTERFACE_TYPE)
    (BusNumber BusInterruptLevel BusInterruptVector : Z) : Z * Z * Z :=
  if INTERFACE_TYPE_eqb InterfaceType Internal then
    (BusInterruptVector, KIRQL_of BusInterruptLevel, 1)
  else if negb (INTERFACE_TYPE_eqb InterfaceType Isa) &&
          negb (INTERFACE_TYPE_eqb InterfaceType Eisa) then
    (0, KIRQL_of 0, 0)
  else
    let Irql := KIRQL_of EISA_DEVICE_LEVEL in
    let BusInterruptLevel :=
      if BusInterruptLevel =? 2 then 9 else BusInterruptLevel in
    let Affinity := HalpEisaBusAffinity in
    (ULONG_of (BusInterruptLevel + EISA_VECTORS), Irql, Affinity).

Definition HalRequestIpi (Mask : Z) : Hal unit :=
  if _DUO_ then WRITE_REGISTER_ULONG IpInterruptRequest Mask
  else ret tt.

(** *** Sequences of calls to the two gate routines *)

Inductive GateCall : Type :=
| CallEnable (Vector Irql : Z) (InterruptMode : KINTERRUPT_MODE)
| CallDisable (Vector Irql : Z).

Definition gate_call (c : GateCall) (s : HalState) : HalState :=
  match c with
  | CallEnable Vector Irql InterruptMode =>
      snd (HalEnableSystemInterrupt Vector Irql InterruptMode s)
  | CallDisable Vector Irql =>
      snd (HalDisableSystemInterrupt Vector Irql s)
  end.

Definition gate_calls (cs : list GateCall) (s : HalState) : HalState :=
  fold_left (fun st c => gate_call c st) cs s.

(** *** Assumptions on the platform constants *)

(** The bounds a vector is compared with are representable as [ULONG]s. *)
Definition builtin_constants_ok : Prop :=
  is_ULONG (DEVICE_VECTORS + 1) /\ is_ULONG MAXIMUM_BUILTIN_VECTOR.

Definition eisa_constants_ok : Prop :=
  is_ULONG EISA_VECTORS /\ is_ULONG (EISA_VECTORS + MAXIMUM_EISA_VECTOR).

(** The sixteen bit Enable register has a bit for every built-in vector. *)
Definition enable_register_fits : Prop :=
  MAXIMUM_BUILTIN_VECTOR - DEVICE_VECTORS <= 16.

(** [EISA_DEVICE_LEVEL] is representable as a [KIRQL]. *)
Definition eisa_level_ok : Prop :=
  0 <= EISA_DEVICE_LEVEL < 2 ^ KIRQL_BITS.

(** *** Further observations on calls and logs *)

(** What a gate call does to the mask: the bit it is about and the value it
    gives it, or nothing for a vector that fails the built-in test. *)
Definition call_effect (c : GateCall) : option (Z * bool) :=
  match c with
  | CallEnable Vector _ _ =>
      if builtin_vector Vector
      then Some (Vector - DEVICE_VECTORS - 1, true) else None
  | CallDisable Vector _ =>
      if builtin_vector Vector
      then Some (Vector - DEVICE_VECTORS - 1, false) else None
  end.

(** Bit [i] of the mask after the calls [cs] in order, from its value [b]
    before them: the last call about bit [i] decides. *)
Fixpoint mask_bit_after (cs : list GateCall) (i : Z) (b : bool) : bool :=
  match cs with
  | [] => b
  | c :: cs' =>
      mask_bit_after cs' i
        (match call_effect c with
         | Some (k, v) => if k =? i then v else b
         | None => b
         end)
  end.



(** An event of the critical section of a gate call: a write of a [USHORT]
    to the Enable register or a call into the EISA support code. *)
Definition guarded_event (e : Event) : Prop :=
  (exists v, e = EvWriteRegister InterruptEnable v /\ is_USHORT v) \/
  eisa_call e = true.

(** A sequence of interprocessor interrupt requests. *)
Definition request_ipis (Masks : list Z) (s : HalState) : HalState :=
  fold_left (fun st Mask => snd (HalRequestIpi Mask st)) Masks s.

(** The level the external bus branch of the resolver works with:
    [if (BusInterruptLevel == 2) BusInterruptLevel = 9]. *)
Definition remapped_level (BusInterruptLevel : Z) : Z :=
  if BusInterruptLevel =? 2 then 9 else BusInterruptLevel.

(** ** Properties *)

(** *** Bits of machine integers *)

Lemma USHORT_of_testbit (x i : Z) :
  Z.testbit (USHORT_of x) i = (i <? 16) && Z.testbit x i.
Proof.
  unfold USHORT_of. apply Z.testbit_mod_pow2. lia.
Qed.

Lemma is_USHORT_testbit_high (m i : Z) :
  is_USHORT m -> 16 <= i -> Z.testbit m i = false.
Proof.
  intros Hm Hi.
  rewrite <- (Z.mod_small m (2 ^ 16)) by exact Hm.
  rewrite Z.testbit_mod_pow2 by lia.
  replace (i <? 16) with false by (symmetry; apply Z.ltb_ge; exact Hi).
  reflexivity.
Qed.

Lemma USHORT_of_is_USHORT (x : Z) : is_USHORT (USHORT_of x).
Proof.
  unfold is_USHORT, USHORT_of. apply Z.mod_pos_bound. reflexivity.
Qed.

Lemma pow2_small (k : Z) : 0 <= k <= 15 -> 1 <= 2 ^ k <= 2 ^ 15.
Proof.
  intros Hk. split.
  - change 1 with (2 ^ 0). apply Z.pow_le_mono_r; lia.
  - apply Z.pow_le_mono_r; lia.
Qed.

Lemma shl_int_1 (k : Z) : 0 <= k <= 15 -> shl_int 1 k = 2 ^ k.
Proof.
  intros Hk. unfold shl_int, int_of.
  rewrite (Z.mod_small k 32) by lia.
  rewrite Z.shiftl_1_l.
  pose proof (pow2_small k Hk) as Hp.
  change (2 ^ 15) with 32768 in Hp.
  rewrite Z.mod_small; change (2 ^ 31) with 2147483648;
    change (2 ^ 32) with 4294967296; lia.
Qed.

(** *** Observations distribute over the concatenation of logs *)

Lemma register_writes_app (l l' : list Event) :
  register_writes (l ++ l') = register_writes l ++ register_writes l'.
Proof.
  induction l as [|e l IH]; simpl.
  - reflexivity.
  - destruct (register_write e); rewrite IH; reflexivity.
Qed.

Lemma eisa_calls_app (l l' : list Event) :
  eisa_calls (l ++ l') = eisa_calls l ++ eisa_calls l'.
Proof.
  apply filter_app.
Qed.

Lemma enable_register_from_app (l l' : list Event) (cur : option Z) :
  enable_register_from cur (l ++ l') =
  enable_register_from (enable_register_from cur l) l'.
Proof.
  revert cur. induction l as [|e l IH]; intros cur; simpl.
  - reflexivity.
  - destruct e as [| | | |[|] v| |]; apply IH.
Qed.

(** *** The guards, under the assumptions on the constants *)

Lemma builtin_vector_spec (Vector : Z) :
  builtin_constants_ok ->
  builtin_vector Vector = true <->
  DEVICE_VECTORS + 1 <= Vector <= MAXIMUM_BUILTIN_VECTOR.
Proof.
  intros (Hd & Hm). unfold builtin_vector, ULONG_of.
  rewrite !Z.mod_small by assumption.
  rewrite andb_true_iff, !Z.leb_le. reflexivity.
Qed.

Lemma eisa_vector_spec (Vector Irql : Z) :
  eisa_constants_ok ->
  eisa_vector Vector Irql = true <->
  (EISA_VECTORS <= Vector < EISA_VECTORS + MAXIMUM_EISA_VECTOR) /\
  Irql = EISA_DEVICE_LEVEL.
Proof.
  intros (He & Hs). unfold eisa_vector, ULONG_of.
  rewrite !Z.mod_small by assumption.
  rewrite !andb_true_iff, Z.leb_le, Z.ltb_lt, Z.eqb_eq. tauto.
Qed.

Lemma builtin_bit_spec (Vector : Z) :
  enable_register_fits ->
  DEVICE_VECTORS + 1 <= Vector <= MAXIMUM_BUILTIN_VECTOR ->
  builtin_bit Vector = 2 ^ (Vector - DEVICE_VECTORS - 1).
Proof.
  unfold enable_register_fits, builtin_bit, ULONG_of. intros Hf Hv.
  rewrite Z.mod_small by (change (2 ^ 32) with 4294967296; lia).
  apply shl_int_1. lia.
Qed.

(** *** What one call does to the state *)

Lemma HalEnableSystemInterrupt_run
    (Vector Irql : Z) (InterruptMode : KINTERRUPT_MODE) (s : HalState) :
  HalEnableSystemInterrupt Vector Irql InterruptMode s =
  (true,
   let Enable :=
     if builtin_vector Vector
     then USHORT_of (Z.lor (HalpBuiltinInterruptEnable s) (builtin_bit Vector))
     else HalpBuiltinInterruptEnable s in
   mkHalState Enable (CurrentIrql s)
     (Log s ++
      [EvRaiseIrql HIGH_LEVEL; EvAcquireSpinLock] ++
      (if builtin_vector Vector
       then [EvWriteRegister InterruptEnable Enable] else []) ++
      (if eisa_vector Vector Irql
       then [EvEnableEisaInterrupt Vector InterruptMode] else []) ++
      [EvReleaseSpinLock; EvLowerIrql (CurrentIrql s)])).
Proof.
  unfold HalEnableSystemInterrupt, bind, when, ret, KeRaiseIrql, KeLowerIrql,
    KiAcquireSpinLock, KiReleaseSpinLock, WRITE_REGISTER_USHORT,
    HalpEnableEisaInterrupt, get_HalpBuiltinInterruptEnable,
    set_HalpBuiltinInterruptEnable, emit.
  destruct (builtin_vector Vector), (eisa_vector Vector Irql); cbn;
    rewrite <- ?app_assoc; reflexivity.
Qed.

Lemma HalDisableSystemInterrupt_run (Vector Irql : Z) (s : HalState) :
  HalDisableSystemInterrupt Vector Irql s =
  (tt,
   let Enable :=
     if builtin_vector Vector
     then USHORT_of (Z.land (HalpBuiltinInterruptEnable s)
                            (Z.lnot (builtin_bit Vector)))
     else HalpBuiltinInterruptEnable s in
   mkHalState Enable (CurrentIrql s)
     (Log s ++
      [EvRaiseIrql HIGH_LEVEL; EvAcquireSpinLock] ++
      (if builtin_vector Vector
       then [EvWriteRegister InterruptEnable Enable] else []) ++
      (if eisa_vector Vector Irql
       then [EvDisableEisaInterrupt Vector] else []) ++
      [EvReleaseSpinLock; EvLowerIrql (CurrentIrql s)])).
Proof.
  unfold HalDisableSystemInterrupt, bind, when, ret, KeRaiseIrql, KeLowerIrql,
    KiAcquireSpinLock, KiReleaseSpinLock, WRITE_REGISTER_USHORT,
    HalpDisableEisaInterrupt, get_HalpBuiltinInterruptEnable,
    set_HalpBuiltinInterruptEnable, emit.
  destruct (builtin_vector Vector), (eisa_vector Vector Irql); cbn;
    rewrite <- ?app_assoc; reflexivity.
Qed.

(** *** The mask after the read-modify-write, bit by bit *)

Lemma enabled_mask_testbit (m Vector i : Z) :
  enable_register_fits -> is_USHORT m ->
  DEVICE_VECTORS + 1 <= Vector <= MAXIMUM_BUILTIN_VECTOR ->
  Z.testbit (USHORT_of (Z.lor m (builtin_bit Vector))) i =
  if i =? Vector - DEVICE_VECTORS - 1 then true else Z.testbit m i.
Proof.
  intros Hf Hm Hv. pose proof Hf as Hf'. unfold enable_register_fits in Hf'.
  rewrite builtin_bit_spec by assumption.
  rewrite USHORT_of_testbit, Z.lor_spec, Z.pow2_bits_eqb by lia.
  rewrite (Z.eqb_sym _ i).
  destruct (Z.eqb_spec i (Vector - DEVICE_VECTORS - 1)) as [->|Hne].
  - rewrite orb_true_r, andb_true_r. apply Z.ltb_lt. lia.
  - rewrite orb_false_r. destruct (Z.ltb_spec i 16) as [Hlt|Hge].
    + reflexivity.
    + symmetry. apply is_USHORT_testbit_high; assumption.
Qed.

Lemma disabled_mask_testbit (m Vector i : Z) :
  enable_register_fits -> is_USHORT m ->
  DEVICE_VECTORS + 1 <= Vector <= MAXIMUM_BUILTIN_VECTOR ->
  Z.testbit (USHORT_of (Z.land m (Z.lnot (builtin_bit Vector)))) i =
  if i =? Vector - DEVICE_VECTORS - 1 then false else Z.testbit m i.
Proof.
  intros Hf Hm Hv. pose proof Hf as Hf'. unfold enable_register_fits in Hf'.
  rewrite builtin_bit_spec by assumption.
  rewrite USHORT_of_testbit.
  destruct (Z_lt_le_dec i 0) as [Hneg|Hpos].
  - rewrite !(Z.testbit_neg_r _ i) by assumption.
    rewrite andb_false_r. destruct (i =? _); reflexivity.
  - rewrite Z.land_spec, Z.lnot_spec, Z.pow2_bits_eqb by lia.
    rewrite (Z.eqb_sym _ i).
    destruct (Z.eqb_spec i (Vector - DEVICE_VECTORS - 1)) as [->|Hne].
    + cbn. rewrite andb_false_r, andb_false_r. reflexivity.
    + cbn. rewrite andb_true_r. destruct (Z.ltb_spec i 16) as [Hlt|Hge].
      * reflexivity.
      * symmetry. apply is_USHORT_testbit_high; assumption.
Qed.

Lemma enabled_mask_lor (m Vector : Z) :
  enable_register_fits -> is_USHORT m ->
  DEVICE_VECTORS + 1 <= Vector <= MAXIMUM_BUILTIN_VECTOR ->
  USHORT_of (Z.lor m (builtin_bit Vector)) =
  Z.lor m (Z.shiftl 1 (Vector - DEVICE_VECTORS - 1)).
Proof.
  intros Hf Hm Hv. apply Z.bits_inj'. intros i Hi.
  rewrite enabled_mask_testbit by assumption.
  unfold enable_register_fits in Hf.
  rewrite Z.lor_spec, Z.shiftl_1_l, Z.pow2_bits_eqb, (Z.eqb_sym _ i) by lia.
  destruct (i =? _).
  - rewrite orb_true_r. reflexivity.
  - rewrite orb_false_r. reflexivity.
Qed.

Lemma disabled_mask_land (m Vector : Z) :
  enable_register_fits -> is_USHORT m ->
  DEVICE_VECTORS + 1 <= Vector <= MAXIMUM_BUILTIN_VECTOR ->
  USHORT_of (Z.land m (Z.lnot (builtin_bit Vector))) =
  Z.land m (Z.lnot (Z.shiftl 1 (Vector - DEVICE_VECTORS - 1))).
Proof.
  intros Hf Hm Hv. apply Z.bits_inj'. intros i Hi.
  rewrite disabled_mask_testbit by assumption.
  unfold enable_register_fits in Hf.
  rewrite Z.land_spec, Z.lnot_spec, Z.shiftl_1_l, Z.pow2_bits_eqb,
    (Z.eqb_sym _ i) by lia.
  destruct (i =? _); cbn.
  - rewrite andb_false_r. reflexivity.
  - rewrite andb_true_r. reflexivity.
Qed.

(** *** The interrupt gate *)

(** C2.  For a vector in the built-in range, [HalEnableSystemInterrupt] sets
    and [HalDisableSystemInterrupt] clears exactly bit
    [Vector - DEVICE_VECTORS - 1] of [HalpBuiltinInterruptEnable], that is the
    mask [1 << (Vector - DEVICE_VECTORS - 1)]; every other bit keeps its
    value; and the call adds one register write to the log, of the whole
    updated mask to the Enable register. *)
Theorem builtin_gate_updates_one_bit
    (Vector Irql : Z) (InterruptMode : KINTERRUPT_MODE) (s : HalState) :
  builtin_constants_ok -> enable_register_fits ->
  is_USHORT (HalpBuiltinInterruptEnable s) ->
  DEVICE_VECTORS + 1 <= Vector <= MAXIMUM_BUILTIN_VECTOR ->
  let bit := Vector - DEVICE_VECTORS - 1 in
  let se := snd (HalEnableSystemInterrupt Vector Irql InterruptMode s) in
  let sd := snd (HalDisableSystemInterrupt Vector Irql s) in
  (forall i, Z.testbit (HalpBuiltinInterruptEnable se) i =
             if i =? bit then true
             else Z.testbit (HalpBuiltinInterruptEnable s) i) /\
  HalpBuiltinInterruptEnable se =
    Z.lor (HalpBuiltinInterruptEnable s) (Z.shiftl 1 bit) /\
  register_writes (Log se) =
    register_writes (Log s) ++
    [(InterruptEnable, HalpBuiltinInterruptEnable se)] /\
  (forall i, Z.testbit (HalpBuiltinInterruptEnable sd) i =
             if i =? bit then false
             else Z.testbit (HalpBuiltinInterruptEnable s) i) /\
  HalpBuiltinInterruptEnable sd =
    Z.land (HalpBuiltinInterruptEnable s) (Z.lnot (Z.shiftl 1 bit)) /\
  register_writes (Log sd) =
    register_writes (Log s) ++
    [(InterruptEnable, HalpBuiltinInterruptEnable sd)].
Proof.
  intros Hc Hf Hm Hv bit se sd. subst bit se sd.
  rewrite HalEnableSystemInterrupt_run, HalDisableSystemInterrupt_run.
  cbv zeta. cbn [snd HalpBuiltinInterruptEnable Log].
  rewrite (proj2 (builtin_vector_spec Vector Hc) Hv).
  repeat split.
  - intros i. apply enabled_mask_testbit; assumption.
  - apply enabled_mask_lor; assumption.
  - rewrite !register_writes_app.
    destruct (eisa_vector Vector Irql); reflexivity.
  - intros i. apply disabled_mask_testbit; assumption.
  - apply disabled_mask_land; assumption.
  - rewrite !register_writes_app.
    destruct (eisa_vector Vector Irql); reflexivity.
Qed.

(** C1, as the code has it.  Enabling and then disabling a built-in vector
    leaves its bit of the mask clear and every other bit as it was before the
    enable; so the mask is back at its value before the enable when the bit
    was clear then.  Enabling a vector whose bit is already set leaves the
    mask unchanged. *)
Theorem enable_then_disable_clears_bit
    (Vector Irql Irql' : Z) (InterruptMode : KINTERRUPT_MODE) (s : HalState) :
  builtin_constants_ok -> enable_register_fits ->
  is_USHORT (HalpBuiltinInterruptEnable s) ->
  DEVICE_VECTORS + 1 <= Vector <= MAXIMUM_BUILTIN_VECTOR ->
  let bit := Vector - DEVICE_VECTORS - 1 in
  let Enable := HalpBuiltinInterruptEnable s in
  let s1 := snd (HalEnableSystemInterrupt Vector Irql InterruptMode s) in
  let s2 := snd (HalDisableSystemInterrupt Vector Irql' s1) in
  Z.testbit (HalpBuiltinInterruptEnable s2) bit = false /\
  (forall i, i <> bit ->
     Z.testbit (HalpBuiltinInterruptEnable s2) i = Z.testbit Enable i) /\
  (Z.testbit Enable bit = false -> HalpBuiltinInterruptEnable s2 = Enable) /\
  (Z.testbit Enable bit = true -> HalpBuiltinInterruptEnable s1 = Enable).
Proof.
  intros Hc Hf Hm Hv bit Enable s1 s2.
  assert (Hbits1 : forall i, Z.testbit (HalpBuiltinInterruptEnable s1) i =
                     if i =? bit then true else Z.testbit Enable i).
  { intros i. subst s1. rewrite HalEnableSystemInterrupt_run.
    cbv zeta. cbn [snd HalpBuiltinInterruptEnable].
    rewrite (proj2 (builtin_vector_spec Vector Hc) Hv).
    apply enabled_mask_testbit; assumption. }
  assert (Hm1 : is_USHORT (HalpBuiltinInterruptEnable s1)).
  { subst s1. rewrite HalEnableSystemInterrupt_run.
    cbv zeta. cbn [snd HalpBuiltinInterruptEnable].
    rewrite (proj2 (builtin_vector_spec Vector Hc) Hv).
    apply USHORT_of_is_USHORT. }
  assert (Hbits2 : forall i, Z.testbit (HalpBuiltinInterruptEnable s2) i =
                     if i =? bit then false else Z.testbit Enable i).
  { intros i. subst s2. rewrite HalDisableSystemInterrupt_run.
    cbv zeta. cbn [snd HalpBuiltinInterruptEnable].
    rewrite (proj2 (builtin_vector_spec Vector Hc) Hv).
    rewrite disabled_mask_testbit by assumption. fold bit.
    rewrite Hbits1. destruct (i =? bit); reflexivity. }
  repeat split.
  - rewrite Hbits2, Z.eqb_refl. reflexivity.
  - intros i Hi. rewrite Hbits2.
    apply Z.eqb_neq in Hi. rewrite Hi. reflexivity.
  - intros Hclear. apply Z.bits_inj'. intros i _. rewrite Hbits2.
    destruct (Z.eqb_spec i bit) as [->|]; [symmetry; exact Hclear|reflexivity].
  - intros Hset. apply Z.bits_inj'. intros i _. rewrite Hbits1.
    destruct (Z.eqb_spec i bit) as [->|]; [symmetry; exact Hset|reflexivity].
Qed.

(** The vector a gate call is about. *)
Definition call_vector (c : GateCall) : Z :=
  match c with
  | CallEnable Vector _ _ | CallDisable Vector _ => Vector
  end.

(** A gate call either stores the mirror and writes it to the register, or
    touches neither. *)
Lemma gate_call_cases (c : GateCall) (s : HalState) :
  (builtin_vector (call_vector c) = true /\ in_sync (gate_call c s)) \/
  (builtin_vector (call_vector c) = false /\
   HalpBuiltinInterruptEnable (gate_call c s) = HalpBuiltinInterruptEnable s /\
   EnableRegister (gate_call c s) = EnableRegister s).
Proof.
  unfold in_sync, EnableRegister.
  destruct c as [Vector Irql InterruptMode|Vector Irql];
    cbn [gate_call call_vector];
    rewrite ?HalEnableSystemInterrupt_run, ?HalDisableSystemInterrupt_run;
    cbv zeta; cbn [snd HalpBuiltinInterruptEnable Log];
    rewrite !enable_register_from_app;
    destruct (builtin_vector Vector); [left|right|left|right];
    destruct (eisa_vector Vector Irql); cbn; auto.
Qed.

(** C3.  The mirror [HalpBuiltinInterruptEnable] and the Enable register stay
    together: a gate call that changes the mirror returns with the register
    holding the new mirror value; a call made when both agree returns with
    both agreeing; and so does every sequence of calls.  A call that takes
    the built-in branch returns with both agreeing whatever they held. *)
Theorem mirror_matches_enable_register (c : GateCall) (s : HalState) :
  (HalpBuiltinInterruptEnable (gate_call c s) <> HalpBuiltinInterruptEnable s ->
   in_sync (gate_call c s)) /\
  (in_sync s -> in_sync (gate_call c s)) /\
  (forall cs : list GateCall, in_sync s -> in_sync (gate_calls cs s)) /\
  (builtin_vector (call_vector c) = true -> in_sync (gate_call c s)).
Proof.
  assert (Hstep : forall c' s', in_sync s' -> in_sync (gate_call c' s')).
  { intros c' s' Hs.
    destruct (gate_call_cases c' s') as [[_ H]|(_ & Hm & Hr)]; [exact H|].
    unfold in_sync in *. rewrite Hr, Hm. exact Hs. }
  split; [|split; [|split]].
  - intros Hchanged.
    destruct (gate_call_cases c s) as [[_ H]|(_ & Hm & _)]; [exact H|].
    contradiction.
  - apply Hstep.
  - intros cs. revert s. unfold gate_calls.
    induction cs as [|c' cs IH]; intros s' Hs; cbn [fold_left].
    + exact Hs.
    + apply IH, Hstep, Hs.
  - intros Hg.
    destruct (gate_call_cases c s) as [[_ H]|(Hg' & _)]; [exact H|].
    congruence.
Qed.

(** C6.  For a vector outside the built-in range that is outside the EISA
    range, or inside it with an [Irql] other than [EISA_DEVICE_LEVEL], both
    gate routines leave the mirror as it is, write no register and call no
    EISA routine: all they do is raise the IRQL, take and release the lock
    and lower the IRQL again.  [HalEnableSystemInterrupt] returns [TRUE] on
    every input. *)
Theorem gate_ignores_other_vectors
    (Vector Irql : Z) (InterruptMode : KINTERRUPT_MODE) (s : HalState) :
  builtin_constants_ok -> eisa_constants_ok ->
  ~ (DEVICE_VECTORS + 1 <= Vector <= MAXIMUM_BUILTIN_VECTOR) ->
  ~ (EISA_VECTORS <= Vector < EISA_VECTORS + MAXIMUM_EISA_VECTOR) \/
  Irql <> EISA_DEVICE_LEVEL ->
  let idle :=
    mkHalState (HalpBuiltinInterruptEnable s) (CurrentIrql s)
      (Log s ++ [EvRaiseIrql HIGH_LEVEL; EvAcquireSpinLock;
                 EvReleaseSpinLock; EvLowerIrql (CurrentIrql s)]) in
  HalEnableSystemInterrupt Vector Irql InterruptMode s = (true, idle) /\
  HalDisableSystemInterrupt Vector Irql s = (tt, idle) /\
  HalpBuiltinInterruptEnable idle = HalpBuiltinInterruptEnable s /\
  register_writes (Log idle) = register_writes (Log s) /\
  eisa_calls (Log idle) = eisa_calls (Log s) /\
  (forall Vector' Irql' InterruptMode' s',
     fst (HalEnableSystemInterrupt Vector' Irql' InterruptMode' s') = true).
Proof.
  intros Hc Hc' Hb He idle.
  assert (Hgb : builtin_vector Vector = false).
  { destruct (builtin_vector Vector) eqn:E; [|reflexivity].
    apply (builtin_vector_spec Vector Hc) in E. contradiction. }
  assert (Hge : eisa_vector Vector Irql = false).
  { destruct (eisa_vector Vector Irql) eqn:E; [|reflexivity].
    apply (eisa_vector_spec Vector Irql Hc') in E. tauto. }
  rewrite HalEnableSystemInterrupt_run, HalDisableSystemInterrupt_run.
  rewrite Hgb, Hge. subst idle. cbn [app Log HalpBuiltinInterruptEnable].
  do 3 (split; [reflexivity|]). split; [|split].
  - rewrite register_writes_app. cbn. apply app_nil_r.
  - rewrite eisa_calls_app. cbn. apply app_nil_r.
  - intros Vector' Irql' InterruptMode' s'.
    rewrite HalEnableSystemInterrupt_run. reflexivity.
Qed.

(** *** The interprocessor interrupt request *)

(** C7.  Compiled with [_DUO_], [HalRequestIpi] does one thing: it writes
    [Mask], as it is, to the interprocessor request register.  Compiled
    without, it does nothing and leaves the state as it is. *)
Theorem request_ipi_writes_mask (Mask : Z) (s : HalState) :
  if _DUO_ then
    HalRequestIpi Mask s =
      (tt, mkHalState (HalpBuiltinInterruptEnable s) (CurrentIrql s)
                      (Log s ++ [EvWriteRegister IpInterruptRequest Mask])) /\
    register_writes (Log (snd (HalRequestIpi Mask s))) =
      register_writes (Log s) ++ [(IpInterruptRequest, Mask)]
  else
    HalRequestIpi Mask s = (tt, s) /\
    register_writes (Log (snd (HalRequestIpi Mask s))) =
      register_writes (Log s).
Proof.
  unfold HalRequestIpi. destruct _DUO_.
  - split; [reflexivity|].
    unfold WRITE_REGISTER_ULONG, emit. cbn [snd Log].
    rewrite register_writes_app. reflexivity.
  - split; reflexivity.
Qed.

(** *** The vector resolver *)

Lemma KIRQL_of_small (x : Z) : 0 <= x < 2 ^ KIRQL_BITS -> KIRQL_of x = x.
Proof.
  intros Hx. unfold KIRQL_of, unsigned_of. apply Z.mod_small. exact Hx.
Qed.

(** The external bus branch, whichever of the two bus kinds is named. *)
Lemma HalGetInterruptVector_eisa
    (InterfaceType : INTERFACE_TYPE)
    (BusNumber BusInterruptLevel BusInterruptVector : Z) :
  InterfaceType = Isa \/ InterfaceType = Eisa ->
  HalGetInterruptVector InterfaceType BusNumber BusInterruptLevel
                        BusInterruptVector =
  (ULONG_of ((if BusInterruptLevel =? 2 then 9 else BusInterruptLevel)
             + EISA_VECTORS),
   KIRQL_of EISA_DEVICE_LEVEL, HalpEisaBusAffinity).
Proof.
  intros [->| ->]; reflexivity.
Qed.

(** C4, as the code has it.  For [Isa] and [Eisa]: level 2 resolves to the
    vector of level 9; for every other level [L] the vector is
    [L + EISA_VECTORS] in [ULONG] arithmetic, that is modulo [2 ^ 32], which
    is [L + EISA_VECTORS] itself whenever that sum is a [ULONG]; the priority
    is [EISA_DEVICE_LEVEL] and the affinity [HalpEisaBusAffinity]; the bus
    number and the bus interrupt vector play no part. *)
Theorem eisa_resolution
    (InterfaceType : INTERFACE_TYPE)
    (BusNumber BusNumber' L BusInterruptVector BusInterruptVector' : Z) :
  eisa_level_ok ->
  InterfaceType = Isa \/ InterfaceType = Eisa ->
  let resolve := HalGetInterruptVector InterfaceType in
  fst (fst (resolve BusNumber 2 BusInterruptVector)) =
    fst (fst (resolve BusNumber' 9 BusInterruptVector')) /\
  (L <> 2 ->
   fst (fst (resolve BusNumber L BusInterruptVector)) =
     (L + EISA_VECTORS) mod 2 ^ 32) /\
  (L <> 2 -> is_ULONG (L + EISA_VECTORS) ->
   fst (fst (resolve BusNumber L BusInterruptVector)) = L + EISA_VECTORS) /\
  snd (fst (resolve BusNumber L BusInterruptVector)) = EISA_DEVICE_LEVEL /\
  snd (resolve BusNumber L BusInterruptVector) = HalpEisaBusAffinity /\
  resolve BusNumber L BusInterruptVector =
    resolve BusNumber' L BusInterruptVector'.
Proof.
  intros Hl Hi resolve. subst resolve.
  rewrite !(HalGetInterruptVector_eisa InterfaceType) by exact Hi.
  cbn [fst snd].
  split; [reflexivity|]. split; [|split; [|split; [|split]]].
  - intros HL. apply Z.eqb_neq in HL. rewrite HL. reflexivity.
  - intros HL Hsum. apply Z.eqb_neq in HL. rewrite HL.
    apply Z.mod_small. exact Hsum.
  - apply KIRQL_of_small, Hl.
  - reflexivity.
  - reflexivity.
Qed.

(** C5, as the code has it.  For [Internal] the resolver returns the bus
    interrupt vector unchanged as the system vector, affinity 1 (processor 0
    only) and, as priority, the bus interrupt level converted to [KIRQL]:
    the level modulo [2 ^ KIRQL_BITS], which is the level itself when it is
    representable in [KIRQL]. *)
Theorem internal_resolution (BusNumber L BusInterruptVector : Z) :
  HalGetInterruptVector Internal BusNumber L BusInterruptVector =
    (BusInterruptVector, L mod 2 ^ KIRQL_BITS, 1) /\
  (0 <= L < 2 ^ KIRQL_BITS ->
   HalGetInterruptVector Internal BusNumber L BusInterruptVector =
     (BusInterruptVector, L, 1)).
Proof.
  split.
  - reflexivity.
  - intros HL. cbn. rewrite KIRQL_of_small by exact HL. reflexivity.
Qed.

(** C9.  In the internal branch the priority returned is the bus interrupt
    level cast to [KIRQL]: the level modulo [2 ^ KIRQL_BITS].  A level of
    [2 ^ KIRQL_BITS] or more does not come back unchanged; the levels that do
    are exactly those representable in [KIRQL]. *)
Theorem internal_irql_is_truncated (BusNumber L BusInterruptVector : Z) :
  0 <= KIRQL_BITS ->
  let Irql :=
    snd (fst (HalGetInterruptVector Internal BusNumber L BusInterruptVector)) in
  Irql = L mod 2 ^ KIRQL_BITS /\
  (2 ^ KIRQL_BITS <= L -> Irql <> L) /\
  (Irql = L <-> 0 <= L < 2 ^ KIRQL_BITS).
Proof.
  intros Hw Irql. subst Irql. cbn [HalGetInterruptVector INTERFACE_TYPE_eqb fst snd].
  unfold KIRQL_of, unsigned_of.
  assert (Hpos : 0 < 2 ^ KIRQL_BITS) by (apply Z.pow_pos_nonneg; lia).
  pose proof (Z.mod_pos_bound L (2 ^ KIRQL_BITS) Hpos) as Hb.
  split; [reflexivity|]. split.
  - intros Hbig. lia.
  - split.
    + intros Heq. rewrite Heq in Hb. exact Hb.
    + intros HL. apply Z.mod_small. exact HL.
Qed.

(** C8.  For an interface type other than [Internal], [Isa] and [Eisa] the
    resolver returns vector 0, priority 0 and the empty affinity, whatever
    the bus number, the bus interrupt level and the bus interrupt vector. *)
Theorem other_interface_resolves_to_zero
    (InterfaceType : INTERFACE_TYPE)
    (BusNumber BusInterruptLevel BusInterruptVector : Z) :
  InterfaceType <> Internal -> InterfaceType <> Isa -> InterfaceType <> Eisa ->
  HalGetInterruptVector InterfaceType BusNumber BusInterruptLevel
                        BusInterruptVector = (0, 0, 0) /\
  (forall BusNumber' BusInterruptLevel' BusInterruptVector',
     HalGetInterruptVector InterfaceType BusNumber' BusInterruptLevel'
                           BusInterruptVector' =
     HalGetInterruptVector InterfaceType BusNumber BusInterruptLevel
                           BusInterruptVector).
Proof.
  intros Hi Ha He.
  destruct InterfaceType as [| | |tag]; try contradiction.
  split; [|intros]; reflexivity.
Qed.

(** C10.  [Isa] and [Eisa] resolve alike: on the same bus number, bus
    interrupt level and bus interrupt vector the resolver returns the same
    vector, priority and affinity for both. *)
Theorem isa_resolves_as_eisa
    (BusNumber BusInterruptLevel BusInterruptVector : Z) :
  HalGetInterruptVector Isa BusNumber BusInterruptLevel BusInterruptVector =
  HalGetInterruptVector Eisa BusNumber BusInterruptLevel BusInterruptVector.
Proof.
  rewrite (HalGetInterruptVector_eisa Isa) by (left; reflexivity).
  rewrite (HalGetInterruptVector_eisa Eisa) by (right; reflexivity).
  reflexivity.
Qed.

(** *** More on the interrupt gate *)

Lemma gate_call_events (c : GateCall) (s : HalState) :
  exists mid,
    Log (gate_call c s) =
      Log s ++ [EvRaiseIrql HIGH_LEVEL; EvAcquireSpinLock] ++ mid ++
               [EvReleaseSpinLock; EvLowerIrql (CurrentIrql s)] /\
    CurrentIrql (gate_call c s) = CurrentIrql s /\
    Forall guarded_event mid.
Proof.
  destruct c as [Vector Irql InterruptMode|Vector Irql];
    cbn [gate_call];
    rewrite ?HalEnableSystemInterrupt_run, ?HalDisableSystemInterrupt_run;
    cbv zeta; cbn [snd Log CurrentIrql HalpBuiltinInterruptEnable];
    match goal with
    | |- context [?w ++ ?e ++ [EvReleaseSpinLock; _]] => exists (w ++ e)
    end;
    (split; [rewrite <- (app_assoc _ _ [EvReleaseSpinLock; _]); reflexivity|]);
    (split; [reflexivity|]);
    destruct (builtin_vector Vector), (eisa_vector Vector Irql);
    cbn [app];
    repeat (apply Forall_cons || apply Forall_nil);
    first [ left; eexists; split; [reflexivity|apply USHORT_of_is_USHORT]
          | right; reflexivity ].
Qed.





Lemma gate_call_is_USHORT (c : GateCall) (s : HalState) :
  is_USHORT (HalpBuiltinInterruptEnable s) ->
  is_USHORT (HalpBuiltinInterruptEnable (gate_call c s)).
Proof.
  intros Hm.
  destruct c as [Vector Irql InterruptMode|Vector Irql];
    cbn [gate_call];
    rewrite ?HalEnableSystemInterrupt_run, ?HalDisableSystemInterrupt_run;
    cbv zeta; cbn [snd HalpBuiltinInterruptEnable];
    destruct (builtin_vector Vector);
    (apply USHORT_of_is_USHORT || exact Hm).
Qed.

Lemma gate_calls_is_USHORT (cs : list GateCall) (s : HalState) :
  is_USHORT (HalpBuiltinInterruptEnable s) ->
  is_USHORT (HalpBuiltinInterruptEnable (gate_calls cs s)).
Proof.
  revert s. unfold gate_calls.
  induction cs as [|c cs IH]; intros s Hm; cbn [fold_left].
  - exact Hm.
  - apply IH, gate_call_is_USHORT, Hm.
Qed.

Lemma register_writes_guarded (mid : list Event) :
  Forall guarded_event mid ->
  Forall (fun w => fst w = InterruptEnable /\ is_USHORT (snd w))
         (register_writes mid).
Proof.
  induction 1 as [|e mid He _ IH]; cbn [register_writes].
  - constructor.
  - destruct He as [(v & -> & Hv)|He].
    + cbn. constructor; [split; [reflexivity|exact Hv]|exact IH].
    + destruct e; try discriminate He; exact IH.
Qed.

(** X2.  The gate writes nothing but sixteen bit values, and only to the
    Enable register: every register write a sequence of gate calls adds to
    the log is a write of a [USHORT] to the Enable register, whatever the
    platform constants, the arguments and the mirror before; and a mirror
    that is a [USHORT] before the calls is one after them. *)
Theorem gate_calls_write_USHORTs (cs : list GateCall) (s : HalState) :
  (exists ws,
     register_writes (Log (gate_calls cs s)) = register_writes (Log s) ++ ws /\
     Forall (fun w => fst w = InterruptEnable /\ is_USHORT (snd w)) ws) /\
  (is_USHORT (HalpBuiltinInterruptEnable s) ->
   is_USHORT (HalpBuiltinInterruptEnable (gate_calls cs s))).
Proof.
  split; [|apply gate_calls_is_USHORT].
  revert s. unfold gate_calls.
  induction cs as [|c cs IH]; intros s; cbn [fold_left].
  - exists []. rewrite app_nil_r. split; [reflexivity|constructor].
  - destruct (gate_call_events c s) as (mid & Hlog & _ & Hmid).
    destruct (IH (gate_call c s)) as (ws & Hws & Hall).
    exists (register_writes mid ++ ws). split.
    + rewrite Hws, Hlog, !register_writes_app.
      cbn [register_writes register_write app].
      rewrite app_nil_r, app_assoc. reflexivity.
    + apply Forall_app. split; [apply register_writes_guarded, Hmid|exact Hall].
Qed.

Lemma gate_call_testbit (c : GateCall) (s : HalState) (i : Z) :
  builtin_constants_ok -> enable_register_fits ->
  is_USHORT (HalpBuiltinInterruptEnable s) ->
  Z.testbit (HalpBuiltinInterruptEnable (gate_call c s)) i =
  match call_effect c with
  | Some (k, v) => if k =? i then v
                   else Z.testbit (HalpBuiltinInterruptEnable s) i
  | None => Z.testbit (HalpBuiltinInterruptEnable s) i
  end.
Proof.
  intros Hc Hf Hm.
  destruct c as [Vector Irql InterruptMode|Vector Irql];
    cbn [gate_call call_effect];
    rewrite ?HalEnableSystemInterrupt_run, ?HalDisableSystemInterrupt_run;
    cbv zeta; cbn [snd HalpBuiltinInterruptEnable];
    destruct (builtin_vector Vector) eqn:Hg; try reflexivity;
    apply (builtin_vector_spec Vector Hc) in Hg;
    rewrite ?enabled_mask_testbit, ?disabled_mask_testbit by assumption;
    rewrite (Z.eqb_sym i); reflexivity.
Qed.

(** X3.  The mask after a sequence of gate calls, bit by bit: a bit has the
    value given to it by the last call of the sequence about its vector, set
    by an enable and clear by a disable, and its value before the sequence
    when no call is about it. *)
Theorem mask_after_gate_calls (cs : list GateCall) (s : HalState) (i : Z) :
  builtin_constants_ok -> enable_register_fits ->
  is_USHORT (HalpBuiltinInterruptEnable s) ->
  Z.testbit (HalpBuiltinInterruptEnable (gate_calls cs s)) i =
  mask_bit_after cs i (Z.testbit (HalpBuiltinInterruptEnable s) i).
Proof.
  intros Hc Hf. revert s. unfold gate_calls.
  induction cs as [|c cs IH]; intros s Hm; cbn [fold_left mask_bit_after].
  - reflexivity.
  - rewrite IH by (apply gate_call_is_USHORT, Hm).
    rewrite gate_call_testbit by assumption.
    destruct (call_effect c) as [[k v]|]; reflexivity.
Qed.

Lemma call_effect_bit (c : GateCall) (k : Z) (v : bool) :
  call_effect c = Some (k, v) -> k = call_vector c - DEVICE_VECTORS - 1.
Proof.
  destruct c as [Vector Irql InterruptMode|Vector Irql];
    cbn [call_effect call_vector];
    destruct (builtin_vector Vector); intros H; inversion H; reflexivity.
Qed.

(** X4.  Gate calls about different vectors commute on the mask: made in
    either order, they leave the same value in [HalpBuiltinInterruptEnable]. *)
Theorem gate_calls_commute (c1 c2 : GateCall) (s : HalState) :
  builtin_constants_ok -> enable_register_fits ->
  is_USHORT (HalpBuiltinInterruptEnable s) ->
  call_vector c1 <> call_vector c2 ->
  HalpBuiltinInterruptEnable (gate_calls [c1; c2] s) =
  HalpBuiltinInterruptEnable (gate_calls [c2; c1] s).
Proof.
  intros Hc Hf Hm Hne. apply Z.bits_inj'. intros i _.
  cbn [gate_calls fold_left].
  rewrite !gate_call_testbit by (try apply gate_call_is_USHORT; assumption).
  destruct (call_effect c1) as [[k1 v1]|] eqn:E1;
    destruct (call_effect c2) as [[k2 v2]|] eqn:E2; try reflexivity.
  apply call_effect_bit in E1, E2.
  destruct (Z.eqb_spec k1 i), (Z.eqb_spec k2 i); try reflexivity. lia.
Qed.

(** X5.  The disable side of the gate: disabling a built-in vector whose bit
    is clear leaves the mask unchanged, so a second disable changes nothing;
    and a disable followed by an enable of the vector leaves its bit set and
    every other bit as before. *)
Theorem disable_is_idempotent
    (Vector Irql Irql' : Z) (InterruptMode : KINTERRUPT_MODE) (s : HalState) :
  builtin_constants_ok -> enable_register_fits ->
  is_USHORT (HalpBuiltinInterruptEnable s) ->
  DEVICE_VECTORS + 1 <= Vector <= MAXIMUM_BUILTIN_VECTOR ->
  let bit := Vector - DEVICE_VECTORS - 1 in
  let Enable := HalpBuiltinInterruptEnable s in
  let s1 := snd (HalDisableSystemInterrupt Vector Irql s) in
  let s2 := snd (HalDisableSystemInterrupt Vector Irql' s1) in
  let s3 := snd (HalEnableSystemInterrupt Vector Irql' InterruptMode s1) in
  (Z.testbit Enable bit = false -> HalpBuiltinInterruptEnable s1 = Enable) /\
  HalpBuiltinInterruptEnable s2 = HalpBuiltinInterruptEnable s1 /\
  HalpBuiltinInterruptEnable s3 = Z.lor Enable (Z.shiftl 1 bit).
Proof.
  intros Hc Hf Hm Hv bit Enable s1 s2 s3. subst s1 s2 s3 Enable.
  change (snd (HalDisableSystemInterrupt Vector Irql s))
    with (gate_call (CallDisable Vector Irql) s).
  remember (gate_call (CallDisable Vector Irql) s) as s1 eqn:Es1.
  change (snd (HalDisableSystemInterrupt Vector Irql' s1))
    with (gate_call (CallDisable Vector Irql') s1).
  change (snd (HalEnableSystemInterrupt Vector Irql' InterruptMode s1))
    with (gate_call (CallEnable Vector Irql' InterruptMode) s1).
  pose proof (proj2 (builtin_vector_spec Vector Hc) Hv) as Hg.
  assert (Hbit : 0 <= bit) by (subst bit; lia).
  assert (Hb1 : forall i, Z.testbit (HalpBuiltinInterruptEnable s1) i =
                  if bit =? i then false
                  else Z.testbit (HalpBuiltinInterruptEnable s) i).
  { intros i. rewrite Es1.
    rewrite (gate_call_testbit (CallDisable Vector Irql) s i Hc Hf Hm).
    cbn [call_effect]. rewrite Hg. reflexivity. }
  assert (Hm1 : is_USHORT (HalpBuiltinInterruptEnable s1))
    by (rewrite Es1; exact (gate_call_is_USHORT (CallDisable Vector Irql) s Hm)).
  split; [|split].
  - intros Hclear. apply Z.bits_inj'. intros i _. rewrite Hb1.
    destruct (Z.eqb_spec bit i) as [<-|]; [symmetry; exact Hclear|reflexivity].
  - apply Z.bits_inj'. intros i _.
    rewrite (gate_call_testbit (CallDisable Vector Irql') s1 i Hc Hf Hm1).
    cbn [call_effect]. rewrite Hg. fold bit. rewrite Hb1.
    destruct (bit =? i); reflexivity.
  - apply Z.bits_inj'. intros i Hi.
    rewrite (gate_call_testbit (CallEnable Vector Irql' InterruptMode) s1 i
               Hc Hf Hm1).
    cbn [call_effect]. rewrite Hg. fold bit. rewrite Hb1.
    rewrite Z.lor_spec, Z.shiftl_1_l, Z.pow2_bits_eqb by exact Hbit.
    destruct (bit =? i).
    + rewrite orb_true_r. reflexivity.
    + rewrite orb_false_r. reflexivity.
Qed.

(** *** The external bus branch of the gate *)

Lemma eisa_gate_run
    (Vector Irql : Z) (InterruptMode : KINTERRUPT_MODE) (s : HalState) :
  builtin_vector Vector = false -> eisa_vector Vector Irql = true ->
  HalEnableSystemInterrupt Vector Irql InterruptMode s =
    (true,
     mkHalState (HalpBuiltinInterruptEnable s) (CurrentIrql s)
       (Log s ++ [EvRaiseIrql HIGH_LEVEL; EvAcquireSpinLock;
                  EvEnableEisaInterrupt Vector InterruptMode;
                  EvReleaseSpinLock; EvLowerIrql (CurrentIrql s)])) /\
  HalDisableSystemInterrupt Vector Irql s =
    (tt,
     mkHalState (HalpBuiltinInterruptEnable s) (CurrentIrql s)
       (Log s ++ [EvRaiseIrql HIGH_LEVEL; EvAcquireSpinLock;
                  EvDisableEisaInterrupt Vector;
                  EvReleaseSpinLock; EvLowerIrql (CurrentIrql s)])).
Proof.
  intros Hb He.
  rewrite HalEnableSystemInterrupt_run, HalDisableSystemInterrupt_run.
  rewrite Hb, He. split; reflexivity.
Qed.

Lemma builtin_excludes_eisa (Vector Irql : Z) :
  builtin_constants_ok -> eisa_constants_ok ->
  MAXIMUM_BUILTIN_VECTOR < EISA_VECTORS ->
  builtin_vector Vector = true -> eisa_vector Vector Irql = false.
Proof.
  intros Hc Hc' Hlt Hb.
  apply (builtin_vector_spec Vector Hc) in Hb.
  destruct (eisa_vector Vector Irql) eqn:E; [|reflexivity].
  apply (eisa_vector_spec Vector Irql Hc') in E. lia.
Qed.

(** X6.  On a platform whose built-in vectors lie below the EISA vectors, a
    vector of the EISA range given with [EISA_DEVICE_LEVEL] is handed to the
    EISA support code and to nothing else: the enable calls
    [HalpEnableEisaInterrupt] with the vector and the interrupt mode it was
    given, the disable calls [HalpDisableEisaInterrupt] with the vector, and
    neither touches the mask or writes a register.  No vector takes both
    branches of the gate. *)
Theorem eisa_gate_delegates
    (Vector Irql : Z) (InterruptMode : KINTERRUPT_MODE) (s : HalState) :
  builtin_constants_ok -> eisa_constants_ok ->
  MAXIMUM_BUILTIN_VECTOR < EISA_VECTORS ->
  EISA_VECTORS <= Vector < EISA_VECTORS + MAXIMUM_EISA_VECTOR ->
  Irql = EISA_DEVICE_LEVEL ->
  HalEnableSystemInterrupt Vector Irql InterruptMode s =
    (true,
     mkHalState (HalpBuiltinInterruptEnable s) (CurrentIrql s)
       (Log s ++ [EvRaiseIrql HIGH_LEVEL; EvAcquireSpinLock;
                  EvEnableEisaInterrupt Vector InterruptMode;
                  EvReleaseSpinLock; EvLowerIrql (CurrentIrql s)])) /\
  HalDisableSystemInterrupt Vector Irql s =
    (tt,
     mkHalState (HalpBuiltinInterruptEnable s) (CurrentIrql s)
       (Log s ++ [EvRaiseIrql HIGH_LEVEL; EvAcquireSpinLock;
                  EvDisableEisaInterrupt Vector;
                  EvReleaseSpinLock; EvLowerIrql (CurrentIrql s)])) /\
  (forall Vector' Irql',
     builtin_vector Vector' && eisa_vector Vector' Irql' = false).
Proof.
  intros Hc Hc' Hlt Hv Hi.
  assert (He : eisa_vector Vector Irql = true)
    by (apply (eisa_vector_spec Vector Irql Hc'); split; assumption).
  assert (Hb : builtin_vector Vector = false).
  { destruct (builtin_vector Vector) eqn:E; [|reflexivity].
    rewrite (builtin_excludes_eisa Vector Irql Hc Hc' Hlt E) in He.
    discriminate He. }
  destruct (eisa_gate_run Vector Irql InterruptMode s Hb He) as [H1 H2].
  split; [exact H1|]. split; [exact H2|].
  intros Vector' Irql'. destruct (builtin_vector Vector') eqn:E; [|reflexivity].
  apply (builtin_excludes_eisa Vector' Irql' Hc Hc' Hlt E).
Qed.

(** *** The resolver and the gate together *)

Lemma resolved_eisa_vector
    (InterfaceType : INTERFACE_TYPE) (BusNumber L BusInterruptVector : Z) :
  eisa_constants_ok -> eisa_level_ok ->
  InterfaceType = Isa \/ InterfaceType = Eisa ->
  0 <= L -> remapped_level L < MAXIMUM_EISA_VECTOR ->
  HalGetInterruptVector InterfaceType BusNumber L BusInterruptVector =
  (EISA_VECTORS + remapped_level L, EISA_DEVICE_LEVEL, HalpEisaBusAffinity).
Proof.
  intros (He & Hs) Hl Hi HL Hr.
  rewrite (HalGetInterruptVector_eisa InterfaceType) by exact Hi.
  rewrite (KIRQL_of_small _ Hl). fold (remapped_level L).
  assert (H0 : 0 <= remapped_level L)
    by (unfold remapped_level; destruct (L =? 2); lia).
  unfold ULONG_of, is_ULONG in *. rewrite Z.mod_small by lia.
  rewrite Z.add_comm. reflexivity.
Qed.

(** X7.  What the resolver returns for an [Isa] or [Eisa] bus interrupt
    level is what the gate takes for an EISA interrupt: for a level that,
    after the remap of 2 to 9, is below [MAXIMUM_EISA_VECTOR], enabling the
    resolved vector at the resolved priority calls [HalpEnableEisaInterrupt]
    on vector [EISA_VECTORS] plus the remapped level, and disabling it calls
    [HalpDisableEisaInterrupt] on that vector; the mask is not touched. *)
Theorem resolved_vector_reaches_eisa_code
    (InterfaceType : INTERFACE_TYPE) (BusNumber L BusInterruptVector : Z)
    (InterruptMode : KINTERRUPT_MODE) (s : HalState) :
  builtin_constants_ok -> eisa_constants_ok -> eisa_level_ok ->
  MAXIMUM_BUILTIN_VECTOR < EISA_VECTORS ->
  InterfaceType = Isa \/ InterfaceType = Eisa ->
  0 <= L -> remapped_level L < MAXIMUM_EISA_VECTOR ->
  let r := HalGetInterruptVector InterfaceType BusNumber L BusInterruptVector in
  let Vector := fst (fst r) in
  let Irql := snd (fst r) in
  Vector = EISA_VECTORS + remapped_level L /\
  HalEnableSystemInterrupt Vector Irql InterruptMode s =
    (true,
     mkHalState (HalpBuiltinInterruptEnable s) (CurrentIrql s)
       (Log s ++ [EvRaiseIrql HIGH_LEVEL; EvAcquireSpinLock;
                  EvEnableEisaInterrupt (EISA_VECTORS + remapped_level L)
                                        InterruptMode;
                  EvReleaseSpinLock; EvLowerIrql (CurrentIrql s)])) /\
  HalDisableSystemInterrupt Vector Irql s =
    (tt,
     mkHalState (HalpBuiltinInterruptEnable s) (CurrentIrql s)
       (Log s ++ [EvRaiseIrql HIGH_LEVEL; EvAcquireSpinLock;
                  EvDisableEisaInterrupt (EISA_VECTORS + remapped_level L);
                  EvReleaseSpinLock; EvLowerIrql (CurrentIrql s)])).
Proof.
  intros Hc Hc' Hl Hlt Hi HL Hr r Vector Irql. subst Vector Irql r.
  rewrite (resolved_eisa_vector InterfaceType BusNumber L BusInterruptVector
             Hc' Hl Hi HL Hr).
  cbn [fst snd]. split; [reflexivity|].
  assert (H0 : 0 <= remapped_level L)
    by (unfold remapped_level; destruct (L =? 2); lia).
  assert (He : eisa_vector (EISA_VECTORS + remapped_level L)
                           EISA_DEVICE_LEVEL = true)
    by (apply (eisa_vector_spec _ _ Hc'); split; [lia|reflexivity]).
  assert (Hb : builtin_vector (EISA_VECTORS + remapped_level L) = false).
  { destruct (builtin_vector _) eqn:E; [|reflexivity].
    rewrite (builtin_excludes_eisa _ EISA_DEVICE_LEVEL Hc Hc' Hlt E) in He.
    discriminate He. }
  exact (eisa_gate_run _ _ InterruptMode s Hb He).
Qed.

(** *** More on the resolver *)

Lemma ULONG_add_cancel (a b c : Z) :
  is_ULONG a -> is_ULONG b ->
  ULONG_of (a + c) = ULONG_of (b + c) -> a = b.
Proof.
  unfold is_ULONG, ULONG_of. change (2 ^ 32) with 4294967296.
  intros Ha Hb H.
  pose proof (Z.div_mod (a + c) 4294967296) as Da.
  pose proof (Z.div_mod (b + c) 4294967296) as Db.
  rewrite H in Da. lia.
Qed.

Lemma remapped_level_is_ULONG (L : Z) : is_ULONG L -> is_ULONG (remapped_level L).
Proof.
  unfold remapped_level, is_ULONG. change (2 ^ 32) with 4294967296.
  destruct (L =? 2); lia.
Qed.

Lemma remapped_level_eq (L1 L2 : Z) :
  remapped_level L1 = remapped_level L2 <->
  L1 = L2 \/ (L1 = 2 /\ L2 = 9) \/ (L1 = 9 /\ L2 = 2).
Proof.
  unfold remapped_level.
  destruct (Z.eqb_spec L1 2), (Z.eqb_spec L2 2); lia.
Qed.

(** X8.  On the external bus branch two bus interrupt levels resolve to the
    same vector only when they are equal or are 2 and 9, whatever
    [EISA_VECTORS] is and although the sum wraps; and no level resolves to
    the vector that level 2 would have without the remap. *)
Theorem eisa_levels_share_vector_only_2_and_9
    (InterfaceType : INTERFACE_TYPE)
    (BusNumber1 BusNumber2 L1 L2 BusInterruptVector1 BusInterruptVector2 : Z) :
  InterfaceType = Isa \/ InterfaceType = Eisa ->
  is_ULONG L1 -> is_ULONG L2 ->
  (fst (fst (HalGetInterruptVector InterfaceType BusNumber1 L1
               BusInterruptVector1)) =
   fst (fst (HalGetInterruptVector InterfaceType BusNumber2 L2
               BusInterruptVector2)) <->
   L1 = L2 \/ (L1 = 2 /\ L2 = 9) \/ (L1 = 9 /\ L2 = 2)) /\
  fst (fst (HalGetInterruptVector InterfaceType BusNumber1 L1
              BusInterruptVector1)) <> ULONG_of (2 + EISA_VECTORS).
Proof.
  intros Hi H1 H2.
  rewrite !(HalGetInterruptVector_eisa InterfaceType) by exact Hi.
  cbn [fst]. fold (remapped_level L1) (remapped_level L2).
  rewrite <- remapped_level_eq. split; [split|].
  - apply ULONG_add_cancel; apply remapped_level_is_ULONG; assumption.
  - intros ->. reflexivity.
  - intros H. apply ULONG_add_cancel in H.
    + unfold remapped_level in H. destruct (Z.eqb_spec L1 2); lia.
    + apply remapped_level_is_ULONG, H1.
    + unfold is_ULONG. change (2 ^ 32) with 4294967296. lia.
Qed.

(** X9.  Whatever the interface type and the bus interrupt level, what the
    resolver returns fits its types: the vector is a [ULONG] when the bus
    interrupt vector given is one, the priority is below [2 ^ KIRQL_BITS],
    and the affinity is 1, 0 or [HalpEisaBusAffinity]. *)
Theorem resolver_results_in_range
    (InterfaceType : INTERFACE_TYPE)
    (BusNumber BusInterruptLevel BusInterruptVector : Z) :
  0 <= KIRQL_BITS -> is_ULONG BusInterruptVector ->
  let r := HalGetInterruptVector InterfaceType BusNumber BusInterruptLevel
                                 BusInterruptVector in
  is_ULONG (fst (fst r)) /\
  0 <= snd (fst r) < 2 ^ KIRQL_BITS /\
  (snd r = 1 \/ snd r = 0 \/ snd r = HalpEisaBusAffinity).
Proof.
  intros Hw Hv r. subst r.
  assert (Hpos : 0 < 2 ^ KIRQL_BITS) by (apply Z.pow_pos_nonneg; lia).
  assert (Hk : forall x, 0 <= KIRQL_of x < 2 ^ KIRQL_BITS)
    by (intros x; apply Z.mod_pos_bound, Hpos).
  assert (Hu : forall x, is_ULONG (ULONG_of x))
    by (intros x; apply Z.mod_pos_bound; reflexivity).
  destruct InterfaceType as [| | |tag];
    cbn [HalGetInterruptVector INTERFACE_TYPE_eqb negb andb fst snd].
  - split; [exact Hv|]. split; [apply Hk|left; reflexivity].
  - split; [apply Hu|]. split; [apply Hk|right; right; reflexivity].
  - split; [apply Hu|]. split; [apply Hk|right; right; reflexivity].
  - split; [unfold is_ULONG; change (2 ^ 32) with 4294967296; lia|].
    split; [apply Hk|right; left; reflexivity].
Qed.

(** *** Sequences of interprocessor interrupt requests *)

Lemma enable_register_from_ipis (Masks : list Z) (cur : option Z) :
  enable_register_from cur (map (EvWriteRegister IpInterruptRequest) Masks) =
  cur.
Proof.
  induction Masks as [|Mask Masks IH]; [reflexivity|exact IH].
Qed.

Lemma register_writes_ipis (Masks : list Z) :
  register_writes (map (EvWriteRegister IpInterruptRequest) Masks) =
  map (pair IpInterruptRequest) Masks.
Proof.
  induction Masks as [|Mask Masks IH]; cbn; [|rewrite IH]; reflexivity.
Qed.

(** X10.  Compiled with [_DUO_], a sequence of requests writes its masks to
    the interprocessor request register, one write for each in the order of
    the requests, and leaves the mask, the IRQL and the Enable register as
    they are.  Compiled without, it leaves the state as it is. *)
Theorem request_ipis_write_masks_in_order (Masks : list Z) (s : HalState) :
  if _DUO_ then
    Log (request_ipis Masks s) =
      Log s ++ map (EvWriteRegister IpInterruptRequest) Masks /\
    register_writes (Log (request_ipis Masks s)) =
      register_writes (Log s) ++ map (pair IpInterruptRequest) Masks /\
    HalpBuiltinInterruptEnable (request_ipis Masks s) =
      HalpBuiltinInterruptEnable s /\
    CurrentIrql (request_ipis Masks s) = CurrentIrql s /\
    EnableRegister (request_ipis Masks s) = EnableRegister s
  else
    request_ipis Masks s = s.
Proof.
  unfold request_ipis, HalRequestIpi. destruct _DUO_.
  - assert (H : forall Ms st,
              let st' := fold_left
                (fun st0 Mask =>
                   snd (WRITE_REGISTER_ULONG IpInterruptRequest Mask st0))
                Ms st in
              Log st' = Log st ++ map (EvWriteRegister IpInterruptRequest) Ms /\
              HalpBuiltinInterruptEnable st' = HalpBuiltinInterruptEnable st /\
              CurrentIrql st' = CurrentIrql st).
    { induction Ms as [|Mask Ms IH]; intros st; cbn [fold_left map].
      - rewrite app_nil_r. repeat split.
      - destruct (IH (snd (WRITE_REGISTER_ULONG IpInterruptRequest Mask st)))
          as (Hl & Hm & Hq).
        cbv zeta. rewrite Hl, Hm, Hq.
        unfold WRITE_REGISTER_ULONG, emit.
        cbn [snd Log HalpBuiltinInterruptEnable CurrentIrql].
        rewrite <- app_assoc. repeat split. }
    destruct (H Masks s) as (Hl & Hm & Hq).
    split; [exact Hl|]. split; [|split; [exact Hm|split; [exact Hq|]]].
    + rewrite Hl, register_writes_app, register_writes_ipis. reflexivity.
    + unfold EnableRegister.
      rewrite Hl, enable_register_from_app, enable_register_from_ipis.
      reflexivity.
  - induction Masks as [|Mask Masks IH]; [reflexivity|exact IH].
Qed.

End OnPlatform.

(** ** The routines on the Jazz platform *)

Lemma Jazz_builtin_constants_ok : builtin_constants_ok Jazz.
Proof.
  unfold builtin_constants_ok, is_ULONG. cbn. lia.
Qed.

Lemma Jazz_eisa_constants_ok : eisa_constants_ok Jazz.
Proof.
  unfold eisa_constants_ok, is_ULONG. cbn. lia.
Qed.

Lemma Jazz_enable_register_fits : enable_register_fits Jazz.
Proof.
  unfold enable_register_fits. cbn. lia.
Qed.

Lemma Jazz_eisa_level_ok : eisa_level_ok Jazz.
Proof.
  unfold eisa_level_ok. cbn. lia.
Qed.

Lemma booted_is_USHORT (mask : Z) :
  0 <= mask < 65536 -> is_USHORT (HalpBuiltinInterruptEnable (booted mask)).
Proof.
  intros H. unfold is_USHORT. cbn. lia.
Qed.

(** Vector 17 is the first built-in vector: bit 0 of the mask. *)
Lemma Jazz_vector_17 :
  Platform.DEVICE_VECTORS Jazz + 1 <= 17 <= Platform.MAXIMUM_BUILTIN_VECTOR Jazz.
Proof.
  cbn. lia.
Qed.

(** C2 at vector 17 and mask 8: the enable gives mask 9. *)
Lemma builtin_gate_updates_one_bit_witness :
  is_USHORT 8 /\
  Platform.DEVICE_VECTORS Jazz + 1 <= 17 <= Platform.MAXIMUM_BUILTIN_VECTOR Jazz /\
  HalpBuiltinInterruptEnable
    (snd (HalEnableSystemInterrupt Jazz 17 3 Latched (booted 8))) =
  Z.lor 8 (Z.shiftl 1 0).
Proof.
  assert (Hm : is_USHORT (HalpBuiltinInterruptEnable (booted 8)))
    by (apply booted_is_USHORT; lia).
  split; [exact Hm|]. split; [exact Jazz_vector_17|].
  exact (proj1 (proj2 (builtin_gate_updates_one_bit Jazz 17 3 Latched (booted 8)
                         Jazz_builtin_constants_ok Jazz_enable_register_fits
                         Hm Jazz_vector_17))).
Defined.

(** C1 as stated fails when the bit is set before the enable: from mask 1,
    enabling and then disabling vector 17 ends with bit 0 clear. *)
Lemma enable_then_disable_restores_bit_counterexample :
  let s := booted 1 in
  let s1 := snd (HalEnableSystemInterrupt Jazz 17 3 Latched s) in
  let s2 := snd (HalDisableSystemInterrupt Jazz 17 3 s1) in
  let bit := 17 - Platform.DEVICE_VECTORS Jazz - 1 in
  Platform.DEVICE_VECTORS Jazz + 1 <= 17 <= Platform.MAXIMUM_BUILTIN_VECTOR Jazz /\
  Z.testbit (HalpBuiltinInterruptEnable s) bit = true /\
  Z.testbit (HalpBuiltinInterruptEnable s2) bit = false /\
  Z.testbit (HalpBuiltinInterruptEnable s2) bit <>
  Z.testbit (HalpBuiltinInterruptEnable s) bit.
Proof.
  cbv zeta. split; [exact Jazz_vector_17|].
  split; [reflexivity|]. split; [reflexivity|]. discriminate.
Qed.

(** C1 at vector 17 and mask 4, whose bit 0 is clear: the mask is 4 again
    after the enable and the disable. *)
Lemma enable_then_disable_clears_bit_witness :
  is_USHORT 4 /\
  Platform.DEVICE_VECTORS Jazz + 1 <= 17 <= Platform.MAXIMUM_BUILTIN_VECTOR Jazz /\
  Z.testbit 4 0 = false /\
  HalpBuiltinInterruptEnable
    (snd (HalDisableSystemInterrupt Jazz 17 5
            (snd (HalEnableSystemInterrupt Jazz 17 3 Latched (booted 4))))) = 4.
Proof.
  assert (Hm : is_USHORT (HalpBuiltinInterruptEnable (booted 4)))
    by (apply booted_is_USHORT; lia).
  split; [exact Hm|]. split; [exact Jazz_vector_17|]. split; [reflexivity|].
  exact (proj1 (proj2 (proj2
           (enable_then_disable_clears_bit Jazz 17 3 5 Latched (booted 4)
              Jazz_builtin_constants_ok Jazz_enable_register_fits
              Hm Jazz_vector_17)))
         eq_refl).
Defined.

(** C3 on three calls from a state in which mirror and register agree. *)
Lemma mirror_matches_enable_register_witness :
  in_sync (booted 0) /\
  in_sync (gate_calls Jazz
             [CallEnable 17 3 Latched; CallDisable 35 5; CallDisable 17 3]
             (booted 0)).
Proof.
  assert (H0 : in_sync (booted 0)) by reflexivity.
  split; [exact H0|].
  exact (proj1 (proj2 (proj2 (mirror_matches_enable_register Jazz
                                (CallEnable 17 3 Latched) (booted 0)))) _ H0).
Defined.

(** C6 at vector 100, which is neither a built-in nor an EISA vector. *)
Lemma gate_ignores_other_vectors_witness :
  ~ (Platform.DEVICE_VECTORS Jazz + 1 <= 100 <=
     Platform.MAXIMUM_BUILTIN_VECTOR Jazz) /\
  (~ (Platform.EISA_VECTORS Jazz <= 100 <
      Platform.EISA_VECTORS Jazz + Platform.MAXIMUM_EISA_VECTOR Jazz) \/
   5 <> Platform.EISA_DEVICE_LEVEL Jazz) /\
  HalEnableSystemInterrupt Jazz 100 5 Latched (booted 1) =
  (true,
   mkHalState 1 0
     [EvWriteRegister InterruptEnable 1; EvRaiseIrql 8; EvAcquireSpinLock;
      EvReleaseSpinLock; EvLowerIrql 0]).
Proof.
  assert (Hb : ~ (Platform.DEVICE_VECTORS Jazz + 1 <= 100 <=
                  Platform.MAXIMUM_BUILTIN_VECTOR Jazz)) by (cbn; lia).
  assert (He : ~ (Platform.EISA_VECTORS Jazz <= 100 <
                  Platform.EISA_VECTORS Jazz + Platform.MAXIMUM_EISA_VECTOR Jazz) \/
               5 <> Platform.EISA_DEVICE_LEVEL Jazz) by (left; cbn; lia).
  split; [exact Hb|]. split; [exact He|].
  exact (proj1 (gate_ignores_other_vectors Jazz 100 5 Latched (booted 1)
                  Jazz_builtin_constants_ok Jazz_eisa_constants_ok Hb He)).
Defined.

(** C4 as stated fails where the sum leaves the [ULONG] range: level
    [2 ^ 32 - 1] resolves to vector 31, not to [2 ^ 32 - 1 + 32]. *)
Lemma eisa_vector_sum_counterexample :
  4294967295 <> 2 /\
  fst (fst (HalGetInterruptVector Jazz Eisa 0 4294967295 0)) = 31 /\
  fst (fst (HalGetInterruptVector Jazz Eisa 0 4294967295 0)) <>
  4294967295 + Platform.EISA_VECTORS Jazz.
Proof.
  split; [discriminate|]. split; [reflexivity|].
  vm_compute. discriminate.
Qed.

(** C4 at level 3: vector 35. *)
Lemma eisa_resolution_witness :
  eisa_level_ok Jazz /\ (Eisa = Isa \/ Eisa = Eisa) /\
  3 <> 2 /\ is_ULONG (3 + Platform.EISA_VECTORS Jazz) /\
  fst (fst (HalGetInterruptVector Jazz Eisa 0 3 0)) =
  3 + Platform.EISA_VECTORS Jazz.
Proof.
  assert (Hi : Eisa = Isa \/ Eisa = Eisa) by (right; reflexivity).
  assert (Hn : 3 <> 2) by lia.
  assert (Hs : is_ULONG (3 + Platform.EISA_VECTORS Jazz))
    by (unfold is_ULONG; cbn; lia).
  split; [exact Jazz_eisa_level_ok|]. split; [exact Hi|].
  split; [exact Hn|]. split; [exact Hs|].
  exact (proj1 (proj2 (proj2 (eisa_resolution Jazz Eisa 0 0 3 0 0
                                Jazz_eisa_level_ok Hi)))
         Hn Hs).
Defined.

(** C5 as stated fails at a level that does not fit [KIRQL]: level 256 comes
    back as priority 0. *)
Lemma internal_level_counterexample :
  HalGetInterruptVector Jazz Internal 0 256 7 = (7, 0, 1) /\
  snd (fst (HalGetInterruptVector Jazz Internal 0 256 7)) <> 256.
Proof.
  split; [reflexivity|]. vm_compute. discriminate.
Qed.

(** C5 at level 3, which fits [KIRQL]. *)
Lemma internal_resolution_witness :
  0 <= 3 < 2 ^ Platform.KIRQL_BITS Jazz /\
  HalGetInterruptVector Jazz Internal 0 3 7 = (7, 3, 1).
Proof.
  assert (HL : 0 <= 3 < 2 ^ Platform.KIRQL_BITS Jazz) by (cbn; lia).
  split; [exact HL|].
  exact (proj2 (internal_resolution Jazz 0 3 7) HL).
Defined.

(** C9 at level 300. *)
Lemma internal_irql_is_truncated_witness :
  0 <= Platform.KIRQL_BITS Jazz /\
  snd (fst (HalGetInterruptVector Jazz Internal 0 300 7)) = 300 mod 2 ^ 8 /\
  snd (fst (HalGetInterruptVector Jazz Internal 0 300 7)) <> 300.
Proof.
  assert (Hw : 0 <= Platform.KIRQL_BITS Jazz) by (cbn; lia).
  assert (Hbig : 2 ^ Platform.KIRQL_BITS Jazz <= 300) by (cbn; lia).
  split; [exact Hw|]. split.
  - exact (proj1 (internal_irql_is_truncated Jazz 0 300 7 Hw)).
  - exact (proj1 (proj2 (internal_irql_is_truncated Jazz 0 300 7 Hw)) Hbig).
Defined.

(** C8 at an interface type that is none of the three. *)
Lemma other_interface_resolves_to_zero_witness :
  OtherInterface 3 <> Internal /\ OtherInterface 3 <> Isa /\
  OtherInterface 3 <> Eisa /\
  HalGetInterruptVector Jazz (OtherInterface 3) 1 4 9 = (0, 0, 0).
Proof.
  assert (Hi : OtherInterface 3 <> Internal) by discriminate.
  assert (Ha : OtherInterface 3 <> Isa) by discriminate.
  assert (He : OtherInterface 3 <> Eisa) by discriminate.
  split; [exact Hi|]. split; [exact Ha|]. split; [exact He|].
  exact (proj1 (other_interface_resolves_to_zero Jazz (OtherInterface 3) 1 4 9
                  Hi Ha He)).
Defined.

(** ** Further runs on the Jazz platform *)

Lemma Jazz_builtin_below_eisa :
  Platform.MAXIMUM_BUILTIN_VECTOR Jazz < Platform.EISA_VECTORS Jazz.
Proof.
  cbn. lia.
Qed.

(** X3 on three calls from the empty mask: vector 20 stays enabled, so bit 3
    is set. *)
Lemma mask_after_gate_calls_witness :
  is_USHORT 0 /\
  Z.testbit
    (HalpBuiltinInterruptEnable
       (gate_calls Jazz
          [CallEnable 17 3 Latched; CallEnable 20 3 Latched; CallDisable 17 3]
          (booted 0))) 3 = true.
Proof.
  assert (Hm : is_USHORT (HalpBuiltinInterruptEnable (booted 0)))
    by (apply booted_is_USHORT; lia).
  split; [exact Hm|].
  exact (mask_after_gate_calls Jazz
           [CallEnable 17 3 Latched; CallEnable 20 3 Latched; CallDisable 17 3]
           (booted 0) 3
           Jazz_builtin_constants_ok Jazz_enable_register_fits Hm).
Defined.

(** X4 on an enable of vector 17 and a disable of vector 20, from mask 8. *)
Lemma gate_calls_commute_witness :
  is_USHORT 8 /\ 17 <> 20 /\
  HalpBuiltinInterruptEnable
    (gate_calls Jazz [CallEnable 17 3 Latched; CallDisable 20 3] (booted 8)) =
  HalpBuiltinInterruptEnable
    (gate_calls Jazz [CallDisable 20 3; CallEnable 17 3 Latched] (booted 8)).
Proof.
  assert (Hm : is_USHORT (HalpBuiltinInterruptEnable (booted 8)))
    by (apply booted_is_USHORT; lia).
  assert (Hne : call_vector (CallEnable 17 3 Latched) <>
                call_vector (CallDisable 20 3)) by (cbn; lia).
  split; [exact Hm|]. split; [exact Hne|].
  exact (gate_calls_commute Jazz (CallEnable 17 3 Latched) (CallDisable 20 3)
           (booted 8)
           Jazz_builtin_constants_ok Jazz_enable_register_fits Hm Hne).
Defined.

(** X5 at vector 17 and mask 1: a second disable changes nothing. *)
Lemma disable_is_idempotent_witness :
  is_USHORT 1 /\
  Platform.DEVICE_VECTORS Jazz + 1 <= 17 <= Platform.MAXIMUM_BUILTIN_VECTOR Jazz /\
  HalpBuiltinInterruptEnable
    (snd (HalDisableSystemInterrupt Jazz 17 5
            (snd (HalDisableSystemInterrupt Jazz 17 3 (booted 1))))) =
  HalpBuiltinInterruptEnable
    (snd (HalDisableSystemInterrupt Jazz 17 3 (booted 1))).
Proof.
  assert (Hm : is_USHORT (HalpBuiltinInterruptEnable (booted 1)))
    by (apply booted_is_USHORT; lia).
  split; [exact Hm|]. split; [exact Jazz_vector_17|].
  exact (proj1 (proj2 (disable_is_idempotent Jazz 17 3 5 Latched (booted 1)
                         Jazz_builtin_constants_ok Jazz_enable_register_fits
                         Hm Jazz_vector_17))).
Defined.

(** X6 at vector 35, an EISA vector, given with the EISA device level. *)
Lemma eisa_gate_delegates_witness :
  Platform.EISA_VECTORS Jazz <= 35 <
    Platform.EISA_VECTORS Jazz + Platform.MAXIMUM_EISA_VECTOR Jazz /\
  5 = Platform.EISA_DEVICE_LEVEL Jazz /\
  HalEnableSystemInterrupt Jazz 35 5 LevelSensitive (booted 1) =
  (true,
   mkHalState 1 0
     [EvWriteRegister InterruptEnable 1; EvRaiseIrql 8; EvAcquireSpinLock;
      EvEnableEisaInterrupt 35 LevelSensitive;
      EvReleaseSpinLock; EvLowerIrql 0]).
Proof.
  assert (Hv : Platform.EISA_VECTORS Jazz <= 35 <
               Platform.EISA_VECTORS Jazz + Platform.MAXIMUM_EISA_VECTOR Jazz)
    by (cbn; lia).
  assert (Hi : 5 = Platform.EISA_DEVICE_LEVEL Jazz) by reflexivity.
  split; [exact Hv|]. split; [exact Hi|].
  exact (proj1 (eisa_gate_delegates Jazz 35 5 LevelSensitive (booted 1)
                  Jazz_builtin_constants_ok Jazz_eisa_constants_ok
                  Jazz_builtin_below_eisa Hv Hi)).
Defined.

(** X7 at [Isa] level 2: the resolved vector is 41. *)
Lemma resolved_vector_reaches_eisa_code_witness :
  (Isa = Isa \/ Isa = Eisa) /\ 0 <= 2 /\
  remapped_level 2 < Platform.MAXIMUM_EISA_VECTOR Jazz /\
  fst (fst (HalGetInterruptVector Jazz Isa 0 2 0)) = 41.
Proof.
  assert (Hi : Isa = Isa \/ Isa = Eisa) by (left; reflexivity).
  assert (HL : 0 <= 2) by lia.
  assert (Hr : remapped_level 2 < Platform.MAXIMUM_EISA_VECTOR Jazz)
    by (cbn; lia).
  split; [exact Hi|]. split; [exact HL|]. split; [exact Hr|].
  exact (proj1 (resolved_vector_reaches_eisa_code Jazz Isa 0 2 0 Latched
                  (booted 0)
                  Jazz_builtin_constants_ok Jazz_eisa_constants_ok
                  Jazz_eisa_level_ok Jazz_builtin_below_eisa Hi HL Hr)).
Defined.

(** X8 at the levels 2 and 9. *)
Lemma eisa_levels_share_vector_only_2_and_9_witness :
  is_ULONG 2 /\ is_ULONG 9 /\
  fst (fst (HalGetInterruptVector Jazz Eisa 0 2 0)) =
  fst (fst (HalGetInterruptVector Jazz Eisa 1 9 4)).
Proof.
  assert (Hi : Eisa = Isa \/ Eisa = Eisa) by (right; reflexivity).
  assert (H2 : is_ULONG 2) by (unfold is_ULONG; lia).
  assert (H9 : is_ULONG 9) by (unfold is_ULONG; lia).
  split; [exact H2|]. split; [exact H9|].
  exact (proj2 (proj1 (eisa_levels_share_vector_only_2_and_9 Jazz Eisa
                         0 1 2 9 0 4 Hi H2 H9))
           (or_intror (or_introl (conj eq_refl eq_refl)))).
Defined.

(** X9 at an internal level that does not fit [KIRQL]. *)
Lemma resolver_results_in_range_witness :
  0 <= Platform.KIRQL_BITS Jazz /\ is_ULONG 7 /\
  0 <= snd (fst (HalGetInterruptVector Jazz Internal 0 300 7)) < 2 ^ 8.
Proof.
  assert (Hw : 0 <= Platform.KIRQL_BITS Jazz) by (cbn; lia).
  assert (Hv : is_ULONG 7) by (unfold is_ULONG; lia).
  split; [exact Hw|]. split; [exact Hv|].
  exact (proj1 (proj2 (resolver_results_in_range Jazz Internal 0 300 7 Hw Hv))).
Defined.
